(** * Dynamic loading of the [mymath] extension module

    A shallow embedding of [python2native/C/call_mymath_linux.cpp] and of
    the export surface declared in [python2native/C/mymath_c_api.h].

    [main] talks to the platform's dynamic loader ([dlopen], [dlsym],
    [dlerror], [dlclose]) and to the two standard streams.  The loader is a
    parameter of the development (a [Platform]); the process-wide error
    indicator that [dlerror] reads and clears, the two streams and a log
    of the loader calls are explicit state, threaded with ExtLib's state
    monad. *)

From Stdlib Require Import ZArith String List Bool Lia.
From Stdlib Require Import Floats.SpecFloat.
From ExtLib Require Import Structures.Monad Data.Monads.StateMonad.
Import ListNotations.
Import MonadNotation.
Local Open Scope monad_scope.
Local Open Scope string_scope.
Local Open Scope Z_scope.

(** ** C scalar types *)

(** [double] is IEEE-754 binary64 (53 bits of precision, exponents below
    1024), with the Standard Library's executable specification of the
    operations (round to nearest, ties to even). *)
Definition double : Type := spec_float.

Module Double.

Definition prec : Z := 53.
Definition emax : Z := 1024.

Definition add (a b : double) : double := SFadd prec emax a b.
Definition mul (a b : double) : double := SFmul prec emax a b.

(** The double nearest to [m * 2^e]; a decimal literal such as [1.5] is
    written [dyadic 3 (-1)]. *)
Definition dyadic (m e : Z) : double := binary_normalize prec emax m e false.

Definition of_Z (z : Z) : double := dyadic z 0.

Definition zero : double := S754_zero false.

End Double.

(** The literals [1.5], [2.5] and [4.0]. *)
Definition one_and_a_half : double := Double.dyadic 3 (-1).
Definition two_and_a_half : double := Double.dyadic 5 (-1).
Definition four : double := Double.of_Z 4.

(** [int] is a 32-bit two's complement integer, kept as a [Z]. *)
Definition INT_MIN : Z := - 2 ^ 31.
Definition INT_MAX : Z := 2 ^ 31 - 1.

Definition wrap_int (z : Z) : Z := (z + 2 ^ 31) mod 2 ^ 32 - 2 ^ 31.

(** ** The export surface of the module ([mymath_c_api.h]) *)

Module MyMath.

(** Modelled from the spec: the body of [C_add_int] is not in the
    repository's sources (the header only declares
    [int C_add_int(int a, int b)]); the export contract says it
    "returns sum".  The sum is brought back into the range of [int]. *)
Definition C_add_int (a b : Z) : Z := wrap_int (a + b).

(** Modelled from the spec: the body of [C_add_double] is missing too
    ([double C_add_double(double a, double b)]); it "returns sum". *)
Definition C_add_double (a b : double) : double := Double.add a b.

(** A [double*] argument is the sequence of the valid elements it points
    to.  Reading past them is outside the contract: [None]. *)
Fixpoint dot_loop (x y : list double) (n : nat) (acc : double) {struct n}
  : option double :=
  match n with
  | O => Some acc
  | S n' =>
      match x, y with
      | a :: x', b :: y' => dot_loop x' y' n' (Double.add acc (Double.mul a b))
      | _, _ => None
      end
  end.

(** Modelled from the spec: the body of [C_dot] is missing
    ([double C_dot(double *x, double *y, int length)]); it "returns dot
    product of first [length] elements of [x] and [y]; caller guarantees
    both buffers have at least [length] valid elements". *)
Definition C_dot (x y : list double) (length : Z) : option double :=
  dot_loop x y (Z.to_nat length) Double.zero.

End MyMath.

(** ** The dynamic loader *)

(** Mode bits of [dlopen], with the values of glibc's [<dlfcn.h>]. *)
Definition RTLD_LAZY : Z := 1.
Definition RTLD_NOW : Z := 2.
Definition RTLD_LOCAL : Z := 0.
Definition RTLD_GLOBAL : Z := 256.

(** What the loader answers to [dlopen]: a diagnostic and the null
    pointer, or a handle, which is not the null pointer. *)
Inductive load_result : Type :=
| LoadFailed (diag : string)
| Loaded (h : positive).

(** What the loader answers to [dlsym]: an address (0 is the null
    pointer) and, independently, the diagnostic it leaves in the error
    indicator, if any. *)
Record sym_result : Type := mkSym { sym_addr : Z; sym_err : option string }.

(** What the loader answers to [dlclose]: its return value (0 on success)
    and the diagnostic it leaves, if any. *)
Record close_result : Type := mkClose { close_ret : Z; close_err : option string }.

(** A platform: the loader's private state, its answers, and what
    happens when the code at an address is called through a pointer of
    type [C_add_int_t] or [C_add_double_t]: it returns a value, or it
    does not return ([None]: the process is killed in the call, as it is
    by a call through the null pointer).  Every answer may depend on the
    whole history, through the state. *)
Record Platform : Type := mkPlatform {
  pstate : Type;
  plat_dlopen : string -> Z -> pstate -> load_result * pstate;
  plat_dlsym : Z -> string -> pstate -> sym_result * pstate;
  plat_dlclose : Z -> pstate -> close_result * pstate;
  plat_call_int : Z -> Z -> Z -> pstate -> option (Z * pstate);
  plat_call_double : Z -> double -> double -> pstate -> option (double * pstate)
}.

(** One loader call or one call through a resolved pointer, with what was
    passed and what came back ([None] for a call that did not return).
    [EvDlsym] also records the error indicator as it was when the lookup
    started. *)
Inductive event : Type :=
| EvDlopen (filename : string) (flags : Z) (res : load_result)
| EvDlerror (ret : option string)
| EvDlsym (handle : Z) (symbol : string) (before : option string) (res : sym_result)
| EvDlclose (handle : Z) (res : close_result)
| EvCallInt (addr a b : Z) (ret : option Z)
| EvCallDouble (addr : Z) (a b : double) (ret : option double).

(** How the process ends: [main] returns an exit code, or the process
    is killed in a call that does not return. *)
Inductive status : Type :=
| Exited (code : Z)
| Killed.

(** What [operator<<] inserts in a stream: a string literal, a
    [const char*] (possibly null), an [int], a [double], [std::endl]. *)
Inductive sitem : Type :=
| SLit (s : string)
| SCstr (s : option string)
| SInt (z : Z)
| SDouble (d : double)
| SEndl.

Section Process.

Variable P : Platform.

Record World : Type := mkWorld {
  w_plat : pstate P;
  w_dlerr : option string;
  w_cout : list sitem;
  w_cerr : list sitem;
  w_trace : list event
}.

Definition log (ev : event) (w : World) : World :=
  mkWorld (w_plat w) (w_dlerr w) (w_cout w) (w_cerr w) (w_trace w ++ [ev]).

Definition set_plat (p : pstate P) (w : World) : World :=
  mkWorld p (w_dlerr w) (w_cout w) (w_cerr w) (w_trace w).

Definition set_dlerr (e : option string) (w : World) : World :=
  mkWorld (w_plat w) e (w_cout w) (w_cerr w) (w_trace w).

(** [dlopen]: null on failure, and then the diagnostic is what the next
    [dlerror] returns. *)
Definition dlopen (filename : string) (flags : Z) : state World Z :=
  mkState (fun w =>
    let (r, p) := plat_dlopen P filename flags (w_plat w) in
    let w1 := log (EvDlopen filename flags r) (set_plat p w) in
    match r with
    | LoadFailed diag => (0, set_dlerr (Some diag) w1)
    | Loaded h => (Zpos h, w1)
    end).

(** [dlerror]: the most recent diagnostic since the last call of
    [dlerror], or null; reading it clears it. *)
Definition dlerror : state World (option string) :=
  mkState (fun w =>
    (w_dlerr w, set_dlerr None (log (EvDlerror (w_dlerr w)) w))).

(** [dlsym]: a lookup that reports no error leaves the indicator as it
    was. *)
Definition dlsym (handle : Z) (symbol : string) : state World Z :=
  mkState (fun w =>
    let (r, p) := plat_dlsym P handle symbol (w_plat w) in
    let w1 := log (EvDlsym handle symbol (w_dlerr w) r) (set_plat p w) in
    (sym_addr r,
     match sym_err r with
     | Some diag => set_dlerr (Some diag) w1
     | None => w1
     end)).

Definition dlclose (handle : Z) : state World Z :=
  mkState (fun w =>
    let (r, p) := plat_dlclose P handle (w_plat w) in
    let w1 := log (EvDlclose handle r) (set_plat p w) in
    (close_ret r,
     match close_err r with
     | Some diag => set_dlerr (Some diag) w1
     | None => w1
     end)).

(** A call through a [C_add_int_t]: the value returned, or [None] when
    the call does not return. *)
Definition call_int (addr a b : Z) : state World (option Z) :=
  mkState (fun w =>
    match plat_call_int P addr a b (w_plat w) with
    | Some (r, p) => (Some r, log (EvCallInt addr a b (Some r)) (set_plat p w))
    | None => (None, log (EvCallInt addr a b None) w)
    end).

(** A call through a [C_add_double_t]. *)
Definition call_double (addr : Z) (a b : double) : state World (option double) :=
  mkState (fun w =>
    match plat_call_double P addr a b (w_plat w) with
    | Some (r, p) => (Some r, log (EvCallDouble addr a b (Some r)) (set_plat p w))
    | None => (None, log (EvCallDouble addr a b None) w)
    end).

(** [std::cout << ...] and [std::cerr << ...]: what reaches the stream.
    A line of results reaches the standard output when its [std::endl]
    flushes it, after the call whose value it prints has returned; what a
    killed process had not flushed is lost. *)
Definition cout (items : list sitem) : state World unit :=
  mkState (fun w =>
    (tt, mkWorld (w_plat w) (w_dlerr w) (w_cout w ++ items) (w_cerr w) (w_trace w))).

Definition cerr (items : list sitem) : state World unit :=
  mkState (fun w =>
    (tt, mkWorld (w_plat w) (w_dlerr w) (w_cout w) (w_cerr w ++ items) (w_trace w))).

Definition libpython : string := "libpython3.12.so".
Definition mymath_so : string := "./mymath.cpython-312-x86_64-linux-gnu.so".

(** [int main()] of [call_mymath_linux.cpp]; the value is the exit code
    that [main] returns, or [Killed] when a call through a resolved
    pointer does not return. *)
Definition main : state World status :=
  hpy <- dlopen libpython (Z.lor RTLD_NOW RTLD_GLOBAL) ;;
  if hpy =? 0 then
    e <- dlerror ;;
    cerr [SLit "dlopen libpython error: "; SCstr e; SEndl] ;;
    ret (Exited 1)
  else
    handle <- dlopen mymath_so RTLD_NOW ;;
    if handle =? 0 then
      e <- dlerror ;;
      cerr [SLit "dlopen error: "; SCstr e; SEndl] ;;
      ret (Exited 1)
    else
      dlerror ;;
      C_add_int_func <- dlsym handle "C_add_int" ;;
      err <- dlerror ;;
      match err with
      | Some _ =>
          cerr [SLit "dlsym(C_add_int) error: "; SCstr err; SEndl] ;;
          dlclose handle ;;
          ret (Exited 1)
      | None =>
          C_add_double_func <- dlsym handle "C_add_double" ;;
          err <- dlerror ;;
          match err with
          | Some _ =>
              cerr [SLit "dlsym(C_add_double) error: "; SCstr err; SEndl] ;;
              dlclose handle ;;
              ret (Exited 1)
          | None =>
              r1 <- call_int C_add_int_func 2 3 ;;
              match r1 with
              | None => ret Killed
              | Some r1 =>
                  cout [SLit "C_add_int(2, 3) = "; SInt r1; SEndl] ;;
                  r2 <- call_double C_add_double_func
                          one_and_a_half two_and_a_half ;;
                  match r2 with
                  | None => ret Killed
                  | Some r2 =>
                      cout [SLit "C_add_double(1.5, 2.5) = "; SDouble r2; SEndl] ;;
                      dlclose handle ;;
                      ret (Exited 0)
                  end
              end
          end
      end.

(** The process starts with empty streams and an empty log; [stale] is
    whatever the error indicator holds when [main] is entered. *)
Definition init_world (p : pstate P) (stale : option string) : World :=
  mkWorld p stale [] [] [].

Definition run (p : pstate P) (stale : option string) : status * World :=
  runState main (init_world p stale).

Definition exit_code (p : pstate P) (stale : option string) : status :=
  fst (run p stale).

Definition trace (p : pstate P) (stale : option string) : list event :=
  w_trace (snd (run p stale)).

Definition stdout (p : pstate P) (stale : option string) : list sitem :=
  w_cout (snd (run p stale)).

Definition stderr (p : pstate P) (stale : option string) : list sitem :=
  w_cerr (snd (run p stale)).

End Process.

Arguments mkWorld {P}.
Arguments w_plat {P}.
Arguments w_dlerr {P}.
Arguments w_cout {P}.
Arguments w_cerr {P}.
Arguments w_trace {P}.

(** ** A reference platform: both libraries load and the module exports
    the three symbols of [mymath_c_api.h] *)

Module Reference.

Definition h_python : positive := 1%positive.
Definition h_mymath : positive := 2%positive.

Definition addr_C_add_int : Z := 4096.
Definition addr_C_add_double : Z := 4128.
Definition addr_C_dot : Z := 4160.

(** The loader's state is the list of the handles that are open. *)
Definition ref_dlopen (filename : string) (flags : Z) (opened : list Z)
  : load_result * list Z :=
  if String.eqb filename libpython then (Loaded h_python, Zpos h_python :: opened)
  else if String.eqb filename mymath_so then
    if existsb (Z.eqb (Zpos h_python)) opened
    then (Loaded h_mymath, Zpos h_mymath :: opened)
    else (LoadFailed (mymath_so ++ ": undefined symbol: PyExc_TypeError"), opened)
  else (LoadFailed (filename ++ ": cannot open shared object file: No such file or directory"),
        opened).

Definition ref_dlsym (handle : Z) (symbol : string) (opened : list Z)
  : sym_result * list Z :=
  if (handle =? Zpos h_mymath) && existsb (Z.eqb handle) opened then
    if String.eqb symbol "C_add_int" then (mkSym addr_C_add_int None, opened)
    else if String.eqb symbol "C_add_double" then (mkSym addr_C_add_double None, opened)
    else if String.eqb symbol "C_dot" then (mkSym addr_C_dot None, opened)
    else (mkSym 0 (Some (mymath_so ++ ": undefined symbol: " ++ symbol)), opened)
  else (mkSym 0 (Some ("undefined symbol: " ++ symbol)), opened).

Definition ref_dlclose (handle : Z) (opened : list Z) : close_result * list Z :=
  if existsb (Z.eqb handle) opened
  then (mkClose 0 None, filter (fun h => negb (h =? handle)) opened)
  else (mkClose (-1) (Some "invalid handle"), opened).

(** A call through an address that is not the function's does not
    return. *)
Definition ref_call_int (addr a b : Z) (opened : list Z) : option (Z * list Z) :=
  if addr =? addr_C_add_int then Some (MyMath.C_add_int a b, opened) else None.

Definition ref_call_double (addr : Z) (a b : double) (opened : list Z)
  : option (double * list Z) :=
  if addr =? addr_C_add_double then Some (MyMath.C_add_double a b, opened) else None.

Definition platform : Platform :=
  mkPlatform (list Z) ref_dlopen ref_dlsym ref_dlclose ref_call_int ref_call_double.

End Reference.

(** A scripted platform: fixed answers, whatever the history.  A call
    through the null pointer does not return; any other address holds
    the adder. *)

Module Scripted.

Definition platform (python mymath : load_result) (add_int add_double : sym_result)
    (closing : close_result) : Platform :=
  mkPlatform unit
    (fun filename _ s =>
       (if String.eqb filename libpython then python else mymath, s))
    (fun _ symbol s =>
       (if String.eqb symbol "C_add_int" then add_int else add_double, s))
    (fun _ s => (closing, s))
    (fun addr a b s => if addr =? 0 then None else Some (MyMath.C_add_int a b, s))
    (fun addr a b s => if addr =? 0 then None else Some (MyMath.C_add_double a b, s)).

End Scripted.

(** ** Reading a log *)

Definition is_dlopen (ev : event) : bool :=
  match ev with EvDlopen _ _ _ => true | _ => false end.

Definition is_dlerror (ev : event) : bool :=
  match ev with EvDlerror _ => true | _ => false end.

Definition is_dlsym (ev : event) : bool :=
  match ev with EvDlsym _ _ _ _ => true | _ => false end.

Definition is_dlclose (ev : event) : bool :=
  match ev with EvDlclose _ _ => true | _ => false end.

Definition is_call (ev : event) : bool :=
  match ev with EvCallInt _ _ _ _ | EvCallDouble _ _ _ _ => true | _ => false end.

(** A call that did not return. *)
Definition did_not_return (ev : event) : bool :=
  match ev with
  | EvCallInt _ _ _ None | EvCallDouble _ _ _ None => true
  | _ => false
  end.

Definition count (f : event -> bool) (tr : list event) : nat :=
  List.length (filter f tr).

(** The diagnostic of a load that failed or of a lookup that left an
    error. *)
Definition failure_of (ev : event) : option string :=
  match ev with
  | EvDlopen _ _ (LoadFailed diag) => Some diag
  | EvDlsym _ _ _ r => sym_err r
  | _ => None
  end.

Definition succeeded (ev : event) : bool :=
  match failure_of ev with Some _ => false | None => true end.

(** Every load and every symbol resolution of the log succeeded. *)
Definition all_succeeded (tr : list event) : bool := forallb succeeded tr.

Fixpoint failures (tr : list event) : list string :=
  match tr with
  | [] => []
  | ev :: tr' =>
      match failure_of ev with
      | Some diag => diag :: failures tr'
      | None => failures tr'
      end
  end.

(** The lookup of [symbol], through any handle. *)
Definition looks_up (symbol : string) (ev : event) : bool :=
  match ev with EvDlsym _ s _ _ => String.eqb s symbol | _ => false end.

(** [handle] is passed to [dlsym] or to [dlclose]. *)
Definition uses_handle (handle : Z) (ev : event) : bool :=
  match ev with
  | EvDlsym h _ _ _ | EvDlclose h _ => h =? handle
  | _ => false
  end.

Definition closes (handle : Z) (ev : event) : bool :=
  match ev with EvDlclose h _ => h =? handle | _ => false end.

Definition loads (filename : string) (ev : event) : bool :=
  match ev with EvDlopen f _ _ => String.eqb f filename | _ => false end.

Definition is_endl (i : sitem) : bool :=
  match i with SEndl => true | _ => false end.

(** A value that a call returned, and a string of the loader. *)
Definition is_value (i : sitem) : bool :=
  match i with SInt _ | SDouble _ => true | _ => false end.

Definition is_cstr (i : sitem) : bool :=
  match i with SCstr _ => true | _ => false end.

(** The lines of a stream are counted by their [std::endl]. *)
Definition lines (s : list sitem) : nat := List.length (filter is_endl s).

(** A mode of [dlopen] has a bit. *)
Definition has_flag (flags bit : Z) : bool := Z.land flags bit =? bit.

(** The same platform with another [dlclose]. *)
Definition with_dlclose (P : Platform)
    (f : Z -> pstate P -> close_result * pstate P) : Platform :=
  mkPlatform (pstate P) (plat_dlopen P) (plat_dlsym P) f
    (plat_call_int P) (plat_call_double P).

(** The same platform, except that the handle it gives for the
    prerequisite library is renamed by [g]. *)
Definition with_python_handle (P : Platform) (g : positive -> positive) : Platform :=
  mkPlatform (pstate P)
    (fun filename flags s =>
       let (r, s') := plat_dlopen P filename flags s in
       (if String.eqb filename libpython
        then match r with Loaded h => Loaded (g h) | LoadFailed _ => r end
        else r, s'))
    (plat_dlsym P) (plat_dlclose P) (plat_call_int P) (plat_call_double P).

(** The code behind the addresses that the loader gives for [C_add_int]
    and [C_add_double] does what the export contract says. *)
Definition honours_contract (P : Platform) : Prop :=
  (forall h s s' a, plat_dlsym P h "C_add_int" s = (mkSym a None, s') ->
     forall x y t,
       option_map fst (plat_call_int P a x y t) = Some (MyMath.C_add_int x y)) /\
  (forall h s s' a, plat_dlsym P h "C_add_double" s = (mkSym a None, s') ->
     forall x y t,
       option_map fst (plat_call_double P a x y t) = Some (MyMath.C_add_double x y)).

(** Scripted platforms for the ways a run can go. *)
Module Scenario.

Definition found (addr : Z) : sym_result := mkSym addr None.
Definition closed_ok : close_result := mkClose 0 None.

(** The prerequisite library is not on the search path. *)
Definition no_python : Platform :=
  Scripted.platform
    (LoadFailed "libpython3.12.so: cannot open shared object file: No such file or directory")
    (Loaded 2) (found 4096) (found 4128) closed_ok.

(** The module exports no [C_add_double]. *)
Definition no_add_double : Platform :=
  Scripted.platform (Loaded 1) (Loaded 2) (found 4096)
    (mkSym 0 (Some "undefined symbol: C_add_double")) closed_ok.

(** The lookup of [C_add_int] gives an address that is not null and
    leaves an error all the same. *)
Definition address_with_error : Platform :=
  Scripted.platform (Loaded 1) (Loaded 2)
    (mkSym 4096 (Some "symbol lookup error")) (found 4128) closed_ok.

(** A [dlclose] that always fails. *)
Definition failing_dlclose (handle : Z) (opened : list Z) : close_result * list Z :=
  (mkClose (-1) (Some "shared object not open"), opened).

End Scenario.

(** The same platform with other code, that returns, behind the resolved
    addresses. *)
Definition with_calls (P : Platform)
    (ci : Z -> Z -> Z -> pstate P -> Z * pstate P)
    (cd : Z -> double -> double -> pstate P -> double * pstate P) : Platform :=
  mkPlatform (pstate P) (plat_dlopen P) (plat_dlsym P) (plat_dlclose P)
    (fun addr a b s => Some (ci addr a b s))
    (fun addr a b s => Some (cd addr a b s)).

(** The handles that were given by a load and not passed to [dlclose]
    since, the latest first. *)
Fixpoint remove_one (h : Z) (l : list Z) : list Z :=
  match l with
  | [] => []
  | x :: l' => if x =? h then l' else x :: remove_one h l'
  end.

Definition unreleased (tr : list event) : list Z :=
  fold_left
    (fun held ev =>
       match ev with
       | EvDlopen _ _ (Loaded h) => Zpos h :: held
       | EvDlclose h _ => remove_one h held
       | _ => held
       end)
    tr [].

(** More scripted platforms. *)
Module Scenario2.

(** The prerequisite library loads, the module does not. *)
Definition no_module : Platform :=
  Scripted.platform (Loaded 1)
    (LoadFailed "./mymath.cpython-312-x86_64-linux-gnu.so: cannot open shared object file")
    (Scenario.found 4096) (Scenario.found 4128) Scenario.closed_ok.

(** An adder that is wrong: it always returns 0. *)
Definition wrong_add_int (addr a b : Z) (opened : list Z) : Z * list Z := (0, opened).

(** The adder of doubles of the module, as code that returns. *)
Definition add_double (addr : Z) (a b : double) (opened : list Z) : double * list Z :=
  (MyMath.C_add_double a b, opened).

(** The lookup of [C_add_int] gives the null address and leaves no
    error. *)
Definition null_add_int : Platform :=
  Scripted.platform (Loaded 1) (Loaded 2) (Scenario.found 0) (Scenario.found 4128)
    Scenario.closed_ok.

End Scenario2.

(** ** Proofs *)

(** Runs [main] symbolically: one case per answer of the platform. *)
Ltac answer :=
  match goal with
  | |- context [plat_dlopen ?P ?f ?fl ?s] =>
      let E := fresh "Eopen" in
      destruct (plat_dlopen P f fl s) as [[?diag | ?h] ?s] eqn:E
  | |- context [plat_dlsym ?P ?h ?n ?s] =>
      let E := fresh "Esym" in
      destruct (plat_dlsym P h n s) as [[?addr [?diag | ]] ?s] eqn:E
  | |- context [plat_dlclose ?P ?h ?s] =>
      let E := fresh "Eclose" in
      destruct (plat_dlclose P h s) as [[?rc [?diag | ]] ?s] eqn:E
  | |- context [plat_call_int ?P ?a ?x ?y ?s] =>
      let E := fresh "Ecall" in
      destruct (plat_call_int P a x y s) as [[?r ?s] | ] eqn:E
  | |- context [plat_call_double ?P ?a ?x ?y ?s] =>
      let E := fresh "Ecall" in
      destruct (plat_call_double P a x y s) as [[?r ?s] | ] eqn:E
  end; cbn.

Ltac run_main :=
  unfold exit_code, trace, stdout, stderr, run, main; cbn; repeat answer.

(** Which event of a concrete log an index points to. *)
Ltac pick i H :=
  repeat (destruct i as [ | i]; cbn in H; try discriminate H).

(** What the loader calls do to the error indicator. *)
Section Indicator.

Variable P : Platform.

Lemma dlerror_reads_and_clears (w : World P) :
  fst (runState (dlerror P) w) = w_dlerr w /\
  w_dlerr (snd (runState (dlerror P) w)) = None.
Proof. split; reflexivity. Qed.

Lemma dlopen_null_when_failed (filename : string) (flags : Z) (w : World P) :
  fst (runState (dlopen P filename flags) w) = 0 <->
  exists diag, fst (plat_dlopen P filename flags (w_plat w)) = LoadFailed diag.
Proof.
  cbn. destruct (plat_dlopen P filename flags (w_plat w)) as [[diag | h] s]; cbn.
  - split; eauto.
  - split; [ discriminate | intros [diag H]; discriminate H ].
Qed.

Lemma dlopen_failure_is_next_dlerror (filename : string) (flags : Z) (w : World P)
    (diag : string) :
  fst (plat_dlopen P filename flags (w_plat w)) = LoadFailed diag ->
  fst (runState (dlopen P filename flags ;; dlerror P) w) = Some diag.
Proof.
  cbn. destruct (plat_dlopen P filename flags (w_plat w)) as [[d | h] s]; cbn;
    intros H; inversion H; reflexivity.
Qed.

Lemma dlsym_without_error_keeps_indicator (handle : Z) (symbol : string) (w : World P) :
  sym_err (fst (plat_dlsym P handle symbol (w_plat w))) = None ->
  w_dlerr (snd (runState (dlsym P handle symbol) w)) = w_dlerr w.
Proof.
  cbn. destruct (plat_dlsym P handle symbol (w_plat w)) as [[addr [d | ]] s]; cbn;
    intros H; [ discriminate H | reflexivity ].
Qed.

End Indicator.

Lemma reference_honours_contract : honours_contract Reference.platform.
Proof.
  split; intros h s s' a; cbn; unfold Reference.ref_dlsym;
    destruct ((h =? Z.pos Reference.h_mymath) && existsb (Z.eqb h) s);
    cbn; intros E x y t; inversion E; subst; reflexivity.
Qed.

Section Claims.

Variable P : Platform.

(** C3, as amended.  For every execution, the exit code is 1 exactly when
    a load or a symbol resolution of the run failed, and then a
    diagnostic holding the loader's own error string for that failure is
    on the error stream.  A run that exits with code 0 is one in which
    the two loads and the two resolutions were performed and succeeded,
    and among the runs in which [main] returns these are the same.  But
    when everything succeeded the process may also be killed in a call
    through a resolved pointer that does not return: then [main] never
    returns, nothing is released and nothing is on the error stream. *)
Theorem exit_code_reports_failure (p : pstate P) (stale : option string) :
  (exit_code P p stale = Exited 1 <-> all_succeeded (trace P p stale) = false) /\
  (exit_code P p stale <> Killed ->
     (exit_code P p stale = Exited 0 <-> all_succeeded (trace P p stale) = true)) /\
  (exit_code P p stale = Exited 0 ->
     all_succeeded (trace P p stale) = true /\
     count is_dlopen (trace P p stale) = 2%nat /\
     count is_dlsym (trace P p stale) = 2%nat /\
     count did_not_return (trace P p stale) = 0%nat) /\
  (exit_code P p stale = Exited 1 ->
     exists prefix diag,
       failures (trace P p stale) = [diag] /\
       stderr P p stale = [SLit prefix; SCstr (Some diag); SEndl]) /\
  (all_succeeded (trace P p stale) = true ->
     exit_code P p stale = Exited 0 \/ exit_code P p stale = Killed) /\
  (exit_code P p stale = Killed <->
     existsb did_not_return (trace P p stale) = true) /\
  (exit_code P p stale = Killed ->
     all_succeeded (trace P p stale) = true /\
     count is_dlsym (trace P p stale) = 2%nat /\
     count is_dlclose (trace P p stale) = 0%nat /\
     stderr P p stale = []).
Proof.
  run_main.
  all: split; [ split; intros; try discriminate; reflexivity | ].
  all: split; [ intros X; try (now elim X); split; intros; try discriminate; reflexivity | ].
  all: split; [ intros; try discriminate; repeat split; reflexivity | ].
  all: split; [ intros; try discriminate; do 2 eexists; split; reflexivity | ].
  all: split; [ intros; try discriminate; auto | ].
  all: split; [ split; intros; try discriminate; reflexivity | ].
  all: intros; try discriminate; repeat split; reflexivity.
Qed.

(** C2. On the success path (every load and every resolution succeeds,
    and the module's code honours the export contract) the program opens
    the prerequisite library, opens the module, resolves [C_add_int] and
    [C_add_double], calls them with the literal arguments, which gives 5
    and 4.0, prints the two results, releases the module handle and exits
    with code 0. *)
Theorem success_path (p : pstate P) (stale : option string) :
  honours_contract P ->
  all_succeeded (trace P p stale) = true ->
  MyMath.C_add_int 2 3 = 5 /\
  MyMath.C_add_double one_and_a_half two_and_a_half = four /\
  exit_code P p stale = Exited 0 /\
  stdout P p stale =
    [SLit "C_add_int(2, 3) = "; SInt 5; SEndl;
     SLit "C_add_double(1.5, 2.5) = "; SDouble four; SEndl] /\
  exists hpy handle C_add_int_func C_add_double_func closed,
    trace P p stale =
      [EvDlopen libpython (Z.lor RTLD_NOW RTLD_GLOBAL) (Loaded hpy);
       EvDlopen mymath_so RTLD_NOW (Loaded handle);
       EvDlerror stale;
       EvDlsym (Zpos handle) "C_add_int" None (mkSym C_add_int_func None);
       EvDlerror None;
       EvDlsym (Zpos handle) "C_add_double" None (mkSym C_add_double_func None);
       EvDlerror None;
       EvCallInt C_add_int_func 2 3 (Some 5);
       EvCallDouble C_add_double_func one_and_a_half two_and_a_half (Some four);
       EvDlclose (Zpos handle) closed].
Proof.
  intros [Hi Hd].
  run_main; intros Hok; try discriminate.
  all: match goal with
       | Hs : plat_dlsym P _ "C_add_int" _ = _,
         Hc : plat_call_int P _ _ _ ?t = _ |- _ =>
           pose proof (Hi _ _ _ _ Hs 2 3 t) as H1; rewrite Hc in H1
       end.
  all: try discriminate H1.
  all: match goal with
       | Hs : plat_dlsym P _ "C_add_double" _ = _,
         Hc : plat_call_double P _ ?x ?y ?t = _ |- _ =>
           pose proof (Hd _ _ _ _ Hs x y t) as H2; rewrite Hc in H2
       end.
  all: try discriminate H2.
  all: cbn in H1, H2; inversion H1; inversion H2; subst.
  all: repeat split; repeat eexists.
Qed.

(** C1, as amended.  No run ever looks [C_dot] up: the only symbols it
    resolves are [C_add_int] and [C_add_double].  The function itself,
    as the export contract describes it, gives 32 on [1,2,3] and [4,5,6]
    with length 3, and 0 with length 0 on any two buffers. *)
Theorem C_dot_declared_not_resolved (p : pstate P) (stale : option string) :
  existsb (looks_up "C_dot") (trace P p stale) = false /\
  forallb (fun ev => negb (is_dlsym ev) || looks_up "C_add_int" ev
                     || looks_up "C_add_double" ev) (trace P p stale) = true /\
  MyMath.C_dot (map Double.of_Z [1; 2; 3]) (map Double.of_Z [4; 5; 6]) 3
    = Some (Double.of_Z 32) /\
  forall x y : list double, MyMath.C_dot x y 0 = Some Double.zero.
Proof.
  run_main.
  all: repeat split; reflexivity.
Qed.

(** C4. Every symbol resolution of every run: the event just before the
    lookup is a read of the error indicator, which clears it, so that the
    lookup starts with the indicator clear; the name passed is one of the
    two export names, as they are; the event just after the lookup is the
    read of the indicator, which returns what the lookup left.  When
    the lookup left an error, whatever address it returned (null or not),
    the run is a failure: exit code 1, no call through a resolved
    pointer, and nothing but the release of the handle after the check
    (no second lookup under another name). *)
Theorem resolution_protocol (p : pstate P) (stale : option string)
    (i : nat) (handle : Z) (symbol : string) (before : option string)
    (res : sym_result) :
  nth_error (trace P p stale) i = Some (EvDlsym handle symbol before res) ->
  (symbol = "C_add_int" \/ symbol = "C_add_double") /\
  (exists j cleared,
     i = S j /\ nth_error (trace P p stale) j = Some (EvDlerror cleared)) /\
  before = None /\
  nth_error (trace P p stale) (S i) = Some (EvDlerror (sym_err res)) /\
  (sym_err res <> None ->
     exit_code P p stale = Exited 1 /\
     count is_call (trace P p stale) = 0%nat /\
     exists closed,
       skipn (S (S i)) (trace P p stale) = [EvDlclose handle closed]).
Proof.
  run_main; intros H; pick i H.
  all: inversion H; subst; clear H; cbn.
  all: split; [ auto | ].
  all: split; [ do 2 eexists; split; reflexivity | ].
  all: split; [ reflexivity | ].
  all: split; [ reflexivity | ].
  all: intros X; try (now elim X).
  all: repeat split; eexists; reflexivity.
Qed.

(** C5. Once the module is opened, with a handle, every run in which
    [main] returns (the exit paths: success or resolution failure)
    releases that handle exactly once: the log holds one [dlclose], of
    that handle, and it is the last entry, so that no lookup (and nothing
    else) follows the release.  When a resolution failed, the run ends
    with exit code 1 without any call through a resolved pointer. *)
Theorem module_handle_released_once (p : pstate P) (stale : option string)
    (handle : positive) :
  In (EvDlopen mymath_so RTLD_NOW (Loaded handle)) (trace P p stale) ->
  exit_code P p stale <> Killed ->
  count is_dlclose (trace P p stale) = 1%nat /\
  count (closes (Zpos handle)) (trace P p stale) = 1%nat /\
  (exists earlier closed,
     trace P p stale = (earlier ++ [EvDlclose (Zpos handle) closed])%list /\
     count is_dlclose earlier = 0%nat) /\
  (all_succeeded (trace P p stale) = false ->
     exit_code P p stale = Exited 1 /\ count is_call (trace P p stale) = 0%nat).
Proof.
  run_main; intros H Hret; try (now elim Hret).
  all: repeat (destruct H as [H | H]; try discriminate H); try contradiction.
  all: inversion H; subst; clear H.
  all: rewrite ?Pos.eqb_refl; cbn.
  all: split; [ reflexivity | ].
  all: split; [ reflexivity | ].
  all: split;
    [ match goal with
      | |- exists earlier closed, ?l = _ /\ _ => exists (removelast l)
      end; cbn; eexists; split; reflexivity
    | ].
  all: intros X; try discriminate X; split; reflexivity.
Qed.

(** C6. The first thing every run does is to open the prerequisite
    library, with a mode that has the immediate-binding bit and the
    global-visibility bit.  When that load succeeds, the run goes on to
    open the module, second, with the immediate-binding bit; when the
    module loads too, the run goes on to look [C_add_int] up through the
    module's handle.  A load that fails is the last load of the run, and
    then no symbol is looked up.  There is no other load, and a symbol is
    only ever looked up after both loads succeeded, the prerequisite
    first, and through the handle the module load returned. *)
Theorem loads_precede_resolution (p : pstate P) (stale : option string) :
  (exists res rest,
     trace P p stale
       = EvDlopen libpython (Z.lor RTLD_NOW RTLD_GLOBAL) res :: rest) /\
  has_flag (Z.lor RTLD_NOW RTLD_GLOBAL) RTLD_NOW = true /\
  has_flag (Z.lor RTLD_NOW RTLD_GLOBAL) RTLD_GLOBAL = true /\
  has_flag (Z.lor RTLD_NOW RTLD_GLOBAL) RTLD_LAZY = false /\
  has_flag RTLD_NOW RTLD_NOW = true /\
  has_flag RTLD_NOW RTLD_LAZY = false /\
  (forall hpy,
     nth_error (trace P p stale) 0
       = Some (EvDlopen libpython (Z.lor RTLD_NOW RTLD_GLOBAL) (Loaded hpy)) ->
     exists res,
       nth_error (trace P p stale) 1 = Some (EvDlopen mymath_so RTLD_NOW res)) /\
  (forall hm,
     nth_error (trace P p stale) 1 = Some (EvDlopen mymath_so RTLD_NOW (Loaded hm)) ->
     exists res,
       nth_error (trace P p stale) 3
         = Some (EvDlsym (Zpos hm) "C_add_int" None res)) /\
  (forall i filename flags diag,
     nth_error (trace P p stale) i
       = Some (EvDlopen filename flags (LoadFailed diag)) ->
     count is_dlopen (trace P p stale) = S i /\
     count is_dlsym (trace P p stale) = 0%nat) /\
  (forall i filename flags res,
     nth_error (trace P p stale) i = Some (EvDlopen filename flags res) ->
     (i = 0%nat /\ filename = libpython /\ flags = Z.lor RTLD_NOW RTLD_GLOBAL) \/
     (i = 1%nat /\ filename = mymath_so /\ flags = RTLD_NOW /\
      exists hpy,
        nth_error (trace P p stale) 0
          = Some (EvDlopen libpython (Z.lor RTLD_NOW RTLD_GLOBAL) (Loaded hpy)))) /\
  (forall i handle symbol before res,
     nth_error (trace P p stale) i = Some (EvDlsym handle symbol before res) ->
     (2 <= i)%nat /\
     exists hpy hm,
       nth_error (trace P p stale) 0
         = Some (EvDlopen libpython (Z.lor RTLD_NOW RTLD_GLOBAL) (Loaded hpy)) /\
       nth_error (trace P p stale) 1
         = Some (EvDlopen mymath_so RTLD_NOW (Loaded hm)) /\
       handle = Zpos hm).
Proof.
  run_main.
  all: split; [ do 2 eexists; reflexivity | ].
  all: do 5 (split; [ reflexivity | ]).
  all: split; [ intros hpy' Hev; try discriminate Hev; eexists; reflexivity | ].
  all: split;
    [ intros hm' Hev; try discriminate Hev; inversion Hev; subst;
      eexists; reflexivity | ].
  all: split;
    [ intros i f fl d Hev; pick i Hev; inversion Hev; subst; split; reflexivity | ].
  all: split; [ intros i f fl res Hev | intros i hd sy be res Hev ]; pick i Hev.
  all: inversion Hev; subst; clear Hev.
  all: try (left; repeat split; reflexivity).
  all: try (right; repeat split; eexists; reflexivity).
  all: split; [ lia | do 2 eexists; repeat split; reflexivity ].
Qed.

(** C7. The prerequisite library is loaded once, by the first loader
    call of every run.  Every handle that a run passes to [dlsym] or to
    [dlclose] is the one the load of the module returned; so, unless the
    loader gave the module the very handle it had given the prerequisite,
    the prerequisite's handle is never looked up through and never
    released.  Nothing that follows the first load depends on the handle
    it returned: with that handle renamed, the rest of the log, the exit
    code and the streams are the same. *)
Theorem prerequisite_handle_only_held (p : pstate P) (stale : option string)
    (g : positive -> positive) :
  (tl (trace (with_python_handle P g) p stale) = tl (trace P p stale) /\
   exit_code (with_python_handle P g) p stale = exit_code P p stale /\
   stdout (with_python_handle P g) p stale = stdout P p stale /\
   stderr (with_python_handle P g) p stale = stderr P p stale) /\
  (exists res rest,
     trace P p stale
       = EvDlopen libpython (Z.lor RTLD_NOW RTLD_GLOBAL) res :: rest /\
     count (loads libpython) rest = 0%nat) /\
  (forall h, existsb (uses_handle h) (trace P p stale) = true ->
     exists hm,
       h = Zpos hm /\
       nth_error (trace P p stale) 1
         = Some (EvDlopen mymath_so RTLD_NOW (Loaded hm))) /\
  (forall hpy,
     nth_error (trace P p stale) 0
       = Some (EvDlopen libpython (Z.lor RTLD_NOW RTLD_GLOBAL) (Loaded hpy)) ->
     nth_error (trace P p stale) 1
       <> Some (EvDlopen mymath_so RTLD_NOW (Loaded hpy)) ->
     existsb (uses_handle (Zpos hpy)) (trace P p stale) = false).
Proof.
  run_main.
  all: split; [ repeat split; reflexivity | ].
  all: split; [ do 2 eexists; split; reflexivity | ].
  all: split; [ intros x Hx | intros hpy H0 H1 ]; try discriminate.
  all: try reflexivity.
  all: try (rewrite ?orb_false_r in Hx;
            assert (Ex : (Z.pos h0 =? x) = true)
              by (repeat (apply orb_prop in Hx; destruct Hx as [Hx | Hx]); assumption);
            apply Z.eqb_eq in Ex; subst x; eexists; split; reflexivity).
  all: inversion H0; subst; clear H0.
  all: destruct (Pos.eqb_spec h0 hpy) as [-> | _]; [ now elim H1 | reflexivity ].
Qed.

(** C8. A read of the error indicator leaves it clear, and in every run
    every lookup starts with the indicator clear, because the event just
    before it is such a read: for [C_add_int], the explicit clear that
    follows the load of the module (it returns, and drops, whatever was
    stale); for [C_add_double], the check of the lookup of [C_add_int],
    which found no error.  Every run reads the indicator once more than
    it looks symbols up. *)
Theorem indicator_clear_before_lookup (p : pstate P) (stale : option string) :
  (forall w : World P, w_dlerr (snd (runState (dlerror P) w)) = None) /\
  count is_dlerror (trace P p stale) = S (count is_dlsym (trace P p stale)) /\
  (forall i handle symbol before res,
     nth_error (trace P p stale) i = Some (EvDlsym handle symbol before res) ->
     before = None /\
     exists j,
       i = S j /\
       ((symbol = "C_add_int" /\
         nth_error (trace P p stale) j = Some (EvDlerror stale) /\
         exists hm,
           nth_error (trace P p stale) (pred j)
             = Some (EvDlopen mymath_so RTLD_NOW (Loaded hm))) \/
        (symbol = "C_add_double" /\
         nth_error (trace P p stale) j = Some (EvDlerror None) /\
         exists first,
           nth_error (trace P p stale) (pred j)
             = Some (EvDlsym handle "C_add_int" None first) /\
           sym_err first = None))).
Proof.
  split; [ reflexivity | ].
  run_main.
  all: split; [ reflexivity | ].
  all: intros i hd sy be res Hev; pick i Hev.
  all: inversion Hev; subst; clear Hev.
  all: split; [ reflexivity | ]; eexists; split; [ reflexivity | ].
  all: try (left; repeat split; eexists; reflexivity).
  all: right; repeat split; eexists; split; reflexivity.
Qed.

(** C9. What [dlclose] returns is ignored: with any other [dlclose], the
    same platform gives the same exit code and the same two streams; and
    in a run that released the handle, the exit code is 0 or 1 by the
    loads and resolutions alone. *)
Theorem release_result_ignored (p : pstate P) (stale : option string)
    (f : Z -> pstate P -> close_result * pstate P) :
  exit_code (with_dlclose P f) p stale = exit_code P p stale /\
  stdout (with_dlclose P f) p stale = stdout P p stale /\
  stderr (with_dlclose P f) p stale = stderr P p stale /\
  (forall handle closed,
     In (EvDlclose handle closed) (trace P p stale) ->
     exit_code P p stale
       = if all_succeeded (trace P p stale) then Exited 0 else Exited 1).
Proof.
  run_main;
    repeat match goal with
      | |- context [f ?h ?s] => destruct (f h s) as [[? [? | ]] ?]; cbn
      end;
    repeat split; intros; try reflexivity;
    repeat match goal with
      | H : _ \/ _ |- _ => destruct H as [H | H]
      | H : False |- _ => contradiction
      end;
    discriminate.
Qed.

(** C10. The two streams are kept apart: no value returned by a call is
    ever on the standard error and no string of the loader is ever on
    the standard output.  A run in which a load or a resolution failed
    exits with code 1, writes nothing to the standard output and exactly
    one line to the standard error: a prefix, the loader's diagnostic of
    that failure and [std::endl].  A run in which nothing failed looks
    both symbols up and writes nothing to the standard error; when it
    exits (with code 0) it has written exactly two lines to the standard
    output, each a label, the value that the call returned and
    [std::endl]; when it is killed in a call it has written fewer. *)
Theorem streams_separated (p : pstate P) (stale : option string) :
  forallb (fun i => negb (is_value i)) (stderr P p stale) = true /\
  forallb (fun i => negb (is_cstr i)) (stdout P p stale) = true /\
  (all_succeeded (trace P p stale) = false ->
     exit_code P p stale = Exited 1 /\
     stdout P p stale = [] /\
     lines (stderr P p stale) = 1%nat /\
     exists prefix diag,
       failures (trace P p stale) = [diag] /\
       stderr P p stale = [SLit prefix; SCstr (Some diag); SEndl]) /\
  (all_succeeded (trace P p stale) = true ->
     count is_dlsym (trace P p stale) = 2%nat /\
     stderr P p stale = [] /\
     (exit_code P p stale = Exited 0 \/ exit_code P p stale = Killed)) /\
  (exit_code P p stale = Exited 0 ->
     all_succeeded (trace P p stale) = true /\
     stderr P p stale = [] /\
     lines (stdout P p stale) = 2%nat /\
     exists a1 r1 a2 r2,
       stdout P p stale =
         [SLit "C_add_int(2, 3) = "; SInt r1; SEndl;
          SLit "C_add_double(1.5, 2.5) = "; SDouble r2; SEndl] /\
       In (EvCallInt a1 2 3 (Some r1)) (trace P p stale) /\
       In (EvCallDouble a2 one_and_a_half two_and_a_half (Some r2))
          (trace P p stale)) /\
  (exit_code P p stale = Killed ->
     stderr P p stale = [] /\ (lines (stdout P p stale) < 2)%nat).
Proof.
  run_main.
  all: do 2 (split; [ reflexivity | ]).
  all: split;
    [ intros X; try discriminate X; repeat split; do 2 eexists; split; reflexivity | ].
  all: split; [ intros X; try discriminate X; repeat split; auto | ].
  all: split; [ intros X; try discriminate X | intros X; try discriminate X ].
  all: try (repeat split; cbn; lia).
  all: repeat split; do 4 eexists; cbn; intuition.
Qed.

End Claims.

(** ** The claims on concrete platforms *)

(** C1 as the specification words it fails: on the reference platform,
    whose module does export [C_dot], the run of [main] holds no lookup
    of [C_dot]. *)
Lemma C_dot_resolved_counterexample :
  fst (Reference.ref_dlsym (Zpos Reference.h_mymath) "C_dot" [2; 1])
    = mkSym Reference.addr_C_dot None /\
  ~ (exists handle before res,
       In (EvDlsym handle "C_dot" before res) (trace Reference.platform [] None)).
Proof.
  split; [ reflexivity | ].
  intros (handle & before & res & H). cbn in H.
  repeat (destruct H as [H | H]; try discriminate H). exact H.
Qed.

Lemma success_path_witness :
  all_succeeded (trace Reference.platform [] None) = true /\
  exit_code Reference.platform [] None = Exited 0 /\
  stdout Reference.platform [] None =
    [SLit "C_add_int(2, 3) = "; SInt 5; SEndl;
     SLit "C_add_double(1.5, 2.5) = "; SDouble four; SEndl].
Proof.
  split; [ reflexivity | ].
  destruct (success_path Reference.platform [] None
              reference_honours_contract eq_refl) as (_ & _ & H0 & H1 & _).
  exact (conj H0 H1).
Defined.

Lemma exit_code_reports_failure_witness :
  (exit_code Scenario.no_python tt None = Exited 1 /\
   exists prefix diag,
     failures (trace Scenario.no_python tt None) = [diag] /\
     stderr Scenario.no_python tt None = [SLit prefix; SCstr (Some diag); SEndl]) /\
  (exit_code Scenario2.null_add_int tt None = Killed /\
   all_succeeded (trace Scenario2.null_add_int tt None) = true /\
   count is_dlclose (trace Scenario2.null_add_int tt None) = 0%nat).
Proof.
  split.
  - split; [ reflexivity | ].
    exact (proj1 (proj2 (proj2 (proj2
             (exit_code_reports_failure Scenario.no_python tt None)))) eq_refl).
  - split; [ reflexivity | ].
    destruct (exit_code_reports_failure Scenario2.null_add_int tt None)
      as (_ & _ & _ & _ & _ & _ & H).
    destruct (H eq_refl) as (H1 & _ & H2 & _).
    exact (conj H1 H2).
Defined.

Lemma resolution_protocol_witness :
  nth_error (trace Scenario.address_with_error tt None) 3
    = Some (EvDlsym 2 "C_add_int" None (mkSym 4096 (Some "symbol lookup error"))) /\
  exit_code Scenario.address_with_error tt None = Exited 1 /\
  count is_call (trace Scenario.address_with_error tt None) = 0%nat.
Proof.
  split; [ reflexivity | ].
  destruct (resolution_protocol Scenario.address_with_error tt None 3 2 "C_add_int"
              None (mkSym 4096 (Some "symbol lookup error")) eq_refl)
    as (_ & _ & _ & _ & H).
  destruct H as (H1 & H2 & _); [ discriminate | ].
  exact (conj H1 H2).
Defined.

Lemma module_handle_released_once_witness :
  In (EvDlopen mymath_so RTLD_NOW (Loaded Reference.h_mymath))
     (trace Reference.platform [] None) /\
  count (closes (Zpos Reference.h_mymath)) (trace Reference.platform [] None) = 1%nat.
Proof.
  assert (H : In (EvDlopen mymath_so RTLD_NOW (Loaded Reference.h_mymath))
                 (trace Reference.platform [] None))
    by (right; left; reflexivity).
  split; [ exact H | ].
  assert (R : exit_code Reference.platform [] None <> Killed) by discriminate.
  exact (proj1 (proj2 (module_handle_released_once Reference.platform [] None
                         Reference.h_mymath H R))).
Defined.

Lemma prerequisite_handle_only_held_witness :
  existsb (uses_handle (Zpos Reference.h_python)) (trace Reference.platform [] None)
    = false.
Proof.
  apply (proj2 (proj2 (proj2 (prerequisite_handle_only_held Reference.platform []
                                None (fun h => h))))).
  - reflexivity.
  - discriminate.
Defined.

Lemma indicator_clear_before_lookup_witness :
  exists j first,
    5%nat = S j /\
    nth_error (trace Reference.platform [] (Some "stale")) j = Some (EvDlerror None) /\
    nth_error (trace Reference.platform [] (Some "stale")) (pred j)
      = Some (EvDlsym 2 "C_add_int" None first) /\
    sym_err first = None.
Proof.
  destruct (proj2 (proj2 (indicator_clear_before_lookup Reference.platform []
                            (Some "stale")))
              5%nat 2 "C_add_double" None (mkSym Reference.addr_C_add_double None)
              eq_refl)
    as (_ & j & Hj & [(Hs & _) | (_ & Hr & first & Hf & Hn)]).
  - discriminate Hs.
  - exists j, first. exact (conj Hj (conj Hr (conj Hf Hn))).
Defined.

Lemma release_result_ignored_witness :
  exit_code (with_dlclose Reference.platform Scenario.failing_dlclose) [] None
    = Exited 0 /\
  exit_code (with_dlclose Scenario.no_add_double (fun _ s => (mkClose (-1) None, s)))
    tt None = Exited 1.
Proof.
  split.
  - exact (eq_trans
             (proj1 (release_result_ignored Reference.platform [] None
                       Scenario.failing_dlclose)) eq_refl).
  - exact (eq_trans
             (proj1 (release_result_ignored Scenario.no_add_double tt None
                       (fun _ s => (mkClose (-1) None, s)))) eq_refl).
Defined.

(** C3 as the specification words it fails: the loader gives the null
    address for [C_add_int] and leaves no error, so that every load and
    every resolution succeeded, and the process is killed in the call
    through that null pointer instead of exiting with code 0. *)
Lemma exit_code_zero_counterexample :
  ~ (exit_code Scenario2.null_add_int tt None = Exited 0 <->
     all_succeeded (trace Scenario2.null_add_int tt None) = true).
Proof.
  intros [_ H]. discriminate (H eq_refl).
Qed.

Lemma loads_precede_resolution_witness :
  (exists res,
     nth_error (trace Reference.platform [] None) 1
       = Some (EvDlopen mymath_so RTLD_NOW res)) /\
  (exists res,
     nth_error (trace Reference.platform [] None) 3
       = Some (EvDlsym (Zpos Reference.h_mymath) "C_add_int" None res)).
Proof.
  destruct (loads_precede_resolution Reference.platform [] None)
    as (_ & _ & _ & _ & _ & _ & H1 & H2 & _).
  exact (conj (H1 Reference.h_python eq_refl) (H2 Reference.h_mymath eq_refl)).
Defined.

Lemma streams_separated_witness :
  (exit_code Scenario.no_add_double tt None = Exited 1 /\
   stdout Scenario.no_add_double tt None = [] /\
   lines (stderr Scenario.no_add_double tt None) = 1%nat) /\
  (stderr Reference.platform [] None = [] /\
   lines (stdout Reference.platform [] None) = 2%nat).
Proof.
  split.
  - destruct (streams_separated Scenario.no_add_double tt None)
      as (_ & _ & H & _).
    destruct (H eq_refl) as (H1 & H2 & H3 & _).
    exact (conj H1 (conj H2 H3)).
  - destruct (streams_separated Reference.platform [] None)
      as (_ & _ & _ & _ & H & _).
    destruct (H eq_refl) as (_ & H1 & H2 & _).
    exact (conj H1 H2).
Defined.


(** ** Further properties of [main] *)

Section Extras.

Variable P : Platform.

(** X1. The diagnostic tells which step failed: a failed load of the
    prerequisite is reported as "dlopen libpython error: ", a failed load
    of the module as "dlopen error: ", and a failed lookup of a symbol as
    "dlsym(<symbol>) error: ", each followed by the loader's diagnostic
    of that very call. *)
Theorem diagnostic_names_failed_step (p : pstate P) (stale : option string) :
  (forall flags diag,
     In (EvDlopen libpython flags (LoadFailed diag)) (trace P p stale) ->
     stderr P p stale
       = [SLit "dlopen libpython error: "; SCstr (Some diag); SEndl]) /\
  (forall flags diag,
     In (EvDlopen mymath_so flags (LoadFailed diag)) (trace P p stale) ->
     stderr P p stale = [SLit "dlopen error: "; SCstr (Some diag); SEndl]) /\
  (forall handle symbol before addr diag,
     In (EvDlsym handle symbol before (mkSym addr (Some diag))) (trace P p stale) ->
     stderr P p stale
       = [SLit ("dlsym(" ++ symbol ++ ") error: "); SCstr (Some diag); SEndl]).
Proof.
  run_main.
  all: repeat split; intros.
  all: repeat match goal with
         | H : _ \/ _ |- _ => destruct H as [H | H]
         | H : False |- _ => contradiction
         end.
  all: try discriminate.
  all: match goal with H : _ = _ |- _ => inversion H; subst; clear H end.
  all: reflexivity.
Qed.

(** X2. A load that fails ends the run: the log stops with that [dlopen]
    and the [dlerror] that reads its diagnostic.  Nothing is looked up
    and nothing is released, not even the prerequisite's handle when it
    is the module that failed to load; the exit code is 1 and the
    standard output is empty. *)
Theorem failed_load_ends_run (p : pstate P) (stale : option string)
    (i : nat) (filename : string) (flags : Z) (diag : string) :
  nth_error (trace P p stale) i = Some (EvDlopen filename flags (LoadFailed diag)) ->
  skipn i (trace P p stale)
    = [EvDlopen filename flags (LoadFailed diag); EvDlerror (Some diag)] /\
  count is_dlsym (trace P p stale) = 0%nat /\
  count is_dlclose (trace P p stale) = 0%nat /\
  exit_code P p stale = Exited 1 /\
  stdout P p stale = [].
Proof.
  run_main; intros H; pick i H.
  all: inversion H; subst; clear H.
  all: repeat split; reflexivity.
Qed.

(** X3. An error left in the indicator before [main] starts changes
    nothing that can be observed: the exit code, the two streams and
    every loader call other than the reads of the indicator are the
    same, whatever was stale. *)
Theorem stale_error_is_harmless (p : pstate P) (stale1 stale2 : option string) :
  exit_code P p stale1 = exit_code P p stale2 /\
  stdout P p stale1 = stdout P p stale2 /\
  stderr P p stale1 = stderr P p stale2 /\
  filter (fun ev => negb (is_dlerror ev)) (trace P p stale1)
    = filter (fun ev => negb (is_dlerror ev)) (trace P p stale2).
Proof.
  run_main.
  all: repeat split; reflexivity.
Qed.

(** X4. A call goes through the address that the lookup of its own
    symbol returned, in a lookup that left no error, with the literal
    arguments of the source, and only in a run in which nothing failed.
    The value it returns is printed; when it does not return, the
    process is killed there.  The adder of doubles is called only after
    the adder of ints has returned, and a run makes at most two calls:
    both when it exits with code 0. *)
Theorem calls_go_through_resolved_address (p : pstate P) (stale : option string) :
  (forall addr a b r,
     In (EvCallInt addr a b r) (trace P p stale) ->
     a = 2 /\ b = 3 /\
     (exists handle,
        In (EvDlsym handle "C_add_int" None (mkSym addr None)) (trace P p stale)) /\
     all_succeeded (trace P p stale) = true /\
     match r with
     | Some v => In (SInt v) (stdout P p stale)
     | None =>
         exit_code P p stale = Killed /\ count is_call (trace P p stale) = 1%nat
     end) /\
  (forall addr a b r,
     In (EvCallDouble addr a b r) (trace P p stale) ->
     a = one_and_a_half /\ b = two_and_a_half /\
     (exists handle,
        In (EvDlsym handle "C_add_double" None (mkSym addr None)) (trace P p stale)) /\
     (exists addr1 v1, In (EvCallInt addr1 2 3 (Some v1)) (trace P p stale)) /\
     match r with
     | Some v => In (SDouble v) (stdout P p stale)
     | None => exit_code P p stale = Killed
     end) /\
  (count is_call (trace P p stale) <= 2)%nat /\
  (exit_code P p stale = Exited 0 -> count is_call (trace P p stale) = 2%nat) /\
  (exit_code P p stale = Exited 1 -> count is_call (trace P p stale) = 0%nat).
Proof.
  run_main.
  all: split; [ intros a' x y r' H | split; [ intros a' x y r' H | ] ].
  all: repeat match goal with
         | H : _ \/ _ |- _ => destruct H as [H | H]
         | H : False |- _ => contradiction
         end.
  all: try discriminate.
  all: try match goal with
         | H : EvCallInt _ _ _ _ = _ |- _ => inversion H; subst; clear H
         | H : EvCallDouble _ _ _ _ = _ |- _ => inversion H; subst; clear H
         end.
  all: try (repeat split; intros; try discriminate; cbn; lia).
  all: repeat split; try reflexivity; try (do 2 eexists); try eexists;
    cbn; intuition.
Qed.

(** X5. The handles that are open when the process ends.  When [main]
    returns after the prerequisite was loaded, the one handle that was
    given and not passed to [dlclose] is the prerequisite's: the module's
    handle is released on every exit path, the prerequisite's on none.
    Nothing is open when the prerequisite failed to load, and both
    handles are when the process is killed in a call. *)
Theorem only_prerequisite_left_open (p : pstate P) (stale : option string) :
  (forall diag,
     nth_error (trace P p stale) 0
       = Some (EvDlopen libpython (Z.lor RTLD_NOW RTLD_GLOBAL) (LoadFailed diag)) ->
     unreleased (trace P p stale) = []) /\
  (forall hpy,
     nth_error (trace P p stale) 0
       = Some (EvDlopen libpython (Z.lor RTLD_NOW RTLD_GLOBAL) (Loaded hpy)) ->
     exit_code P p stale <> Killed ->
     unreleased (trace P p stale) = [Zpos hpy]) /\
  (forall hpy hm,
     nth_error (trace P p stale) 0
       = Some (EvDlopen libpython (Z.lor RTLD_NOW RTLD_GLOBAL) (Loaded hpy)) ->
     nth_error (trace P p stale) 1 = Some (EvDlopen mymath_so RTLD_NOW (Loaded hm)) ->
     exit_code P p stale = Killed ->
     unreleased (trace P p stale) = [Zpos hm; Zpos hpy]).
Proof.
  run_main.
  all: split; [ intros d H0; try discriminate H0; reflexivity | ].
  all: split;
    [ intros hpy H0 R; try discriminate H0; try (now elim R);
      inversion H0; subst; unfold unreleased; cbn;
      rewrite ?Pos.eqb_refl; reflexivity
    | intros hpy hm H0 H1 K; try discriminate K;
      inversion H0; inversion H1; subst; reflexivity ].
Qed.

(** X6. The values that the calls return are printed and never checked.
    With code that returns behind the resolved addresses the process is
    never killed, and whatever that code is, the exit code and the
    standard error are the same, and so is the number of lines on the
    standard output; they are also those of the platform's own code,
    when it returns. *)
Theorem results_are_not_checked (p : pstate P) (stale : option string)
    (ci : Z -> Z -> Z -> pstate P -> Z * pstate P)
    (cd : Z -> double -> double -> pstate P -> double * pstate P) :
  exit_code (with_calls P ci cd) p stale <> Killed /\
  (exit_code P p stale <> Killed ->
     exit_code (with_calls P ci cd) p stale = exit_code P p stale /\
     stderr (with_calls P ci cd) p stale = stderr P p stale /\
     lines (stdout (with_calls P ci cd) p stale) = lines (stdout P p stale)) /\
  (forall ci' cd',
     exit_code (with_calls P ci cd) p stale
       = exit_code (with_calls P ci' cd') p stale /\
     stderr (with_calls P ci cd) p stale = stderr (with_calls P ci' cd') p stale /\
     lines (stdout (with_calls P ci cd) p stale)
       = lines (stdout (with_calls P ci' cd') p stale)).
Proof.
  split; [ | split; [ | intros ci' cd' ] ].
  - run_main;
      repeat first
        [ answer
        | match goal with
          | |- context [ci ?a ?x ?y ?s] => destruct (ci a x y s) as [? ?]; cbn
          | |- context [cd ?a ?x ?y ?s] => destruct (cd a x y s) as [? ?]; cbn
          end ];
      discriminate.
  - run_main;
      repeat first
        [ answer
        | match goal with
          | |- context [ci ?a ?x ?y ?s] => destruct (ci a x y s) as [? ?]; cbn
          | |- context [cd ?a ?x ?y ?s] => destruct (cd a x y s) as [? ?]; cbn
          end ];
      intros R; try (now elim R); repeat split; reflexivity.
  - run_main;
      repeat first
        [ answer
        | match goal with
          | |- context [ci ?a ?x ?y ?s] => destruct (ci a x y s) as [? ?]; cbn
          | |- context [cd ?a ?x ?y ?s] => destruct (cd a x y s) as [? ?]; cbn
          | |- context [ci' ?a ?x ?y ?s] => destruct (ci' a x y s) as [? ?]; cbn
          | |- context [cd' ?a ?x ?y ?s] => destruct (cd' a x y s) as [? ?]; cbn
          end ];
      repeat split; reflexivity.
Qed.

(** X7. The null pointer is never passed as a handle, neither to [dlsym]
    nor to [dlclose]: the two tests that follow the loads guard every
    later use. *)
Theorem null_handle_never_used (p : pstate P) (stale : option string) :
  existsb (uses_handle 0) (trace P p stale) = false.
Proof.
  run_main.
  all: reflexivity.
Qed.

(** X8. Whether a resolution succeeded is read from the error indicator
    alone, never from the address: when a lookup of [C_add_int] gives the
    null address and leaves no error, and nothing else fails, the run
    goes on to the call through that null pointer, with 2 and 3. *)
Theorem null_address_without_error_is_called (p : pstate P) (stale : option string)
    (handle : Z) (before : option string) :
  In (EvDlsym handle "C_add_int" before (mkSym 0 None)) (trace P p stale) ->
  all_succeeded (trace P p stale) = true ->
  exists r, In (EvCallInt 0 2 3 r) (trace P p stale).
Proof.
  run_main; intros H Hok; try discriminate Hok.
  all: repeat (destruct H as [H | H]; try discriminate H); try contradiction.
  all: inversion H; subst; clear H.
  all: eexists; cbn; do 7 right; left; reflexivity.
Qed.

End Extras.

Lemma diagnostic_names_failed_step_witness :
  stderr Scenario.no_add_double tt None
    = [SLit "dlsym(C_add_double) error: ";
       SCstr (Some "undefined symbol: C_add_double"); SEndl].
Proof.
  apply (proj2 (proj2 (diagnostic_names_failed_step Scenario.no_add_double tt None))
           2 "C_add_double" None 0 "undefined symbol: C_add_double").
  cbn. do 5 right. left. reflexivity.
Defined.

Lemma failed_load_ends_run_witness :
  count is_dlclose (trace Scenario2.no_module tt None) = 0%nat /\
  exit_code Scenario2.no_module tt None = Exited 1.
Proof.
  destruct (failed_load_ends_run Scenario2.no_module tt None 1 mymath_so RTLD_NOW
              "./mymath.cpython-312-x86_64-linux-gnu.so: cannot open shared object file"
              eq_refl)
    as (_ & _ & H1 & H2 & _).
  exact (conj H1 H2).
Defined.

Lemma calls_go_through_resolved_address_witness :
  (exists handle,
     In (EvDlsym handle "C_add_int" None (mkSym Reference.addr_C_add_int None))
        (trace Reference.platform [] None)) /\
  In (SInt 5) (stdout Reference.platform [] None) /\
  exit_code Scenario2.null_add_int tt None = Killed /\
  count is_call (trace Scenario2.null_add_int tt None) = 1%nat.
Proof.
  destruct (proj1 (calls_go_through_resolved_address Reference.platform [] None)
              Reference.addr_C_add_int 2 3 (Some 5)) as (_ & _ & H & _ & H').
  { cbn. do 7 right. left. reflexivity. }
  destruct (proj1 (calls_go_through_resolved_address Scenario2.null_add_int tt None)
              0 2 3 None) as (_ & _ & _ & _ & K1 & K2).
  { cbn. do 7 right. left. reflexivity. }
  exact (conj H (conj H' (conj K1 K2))).
Defined.

Lemma only_prerequisite_left_open_witness :
  unreleased (trace Reference.platform [] None) = [Zpos Reference.h_python] /\
  unreleased (trace Scenario2.null_add_int tt None) = [2; 1].
Proof.
  split.
  - apply (proj1 (proj2 (only_prerequisite_left_open Reference.platform [] None))).
    + reflexivity.
    + discriminate.
  - apply (proj2 (proj2 (only_prerequisite_left_open Scenario2.null_add_int tt None))
             1%positive 2%positive); reflexivity.
Defined.

Lemma results_are_not_checked_witness :
  exit_code (with_calls Reference.platform Scenario2.wrong_add_int
               Scenario2.add_double) [] None = Exited 0.
Proof.
  assert (R : exit_code Reference.platform [] None <> Killed) by discriminate.
  exact (eq_trans
           (proj1 (proj1 (proj2 (results_are_not_checked Reference.platform [] None
                                   Scenario2.wrong_add_int Scenario2.add_double)) R))
           eq_refl).
Defined.

Lemma null_address_without_error_is_called_witness :
  exists r, In (EvCallInt 0 2 3 r) (trace Scenario2.null_add_int tt None).
Proof.
  apply (null_address_without_error_is_called Scenario2.null_add_int tt None 2 None).
  - cbn. do 3 right. left. reflexivity.
  - reflexivity.
Defined.
